(** * Pay periods: a shallow embedding of [pay_periods.py] and its properties

    The program lists pay periods as year-less labels [e_MMDD_MMDD].  All of
    its logic is the method [PayPeriods.list]: a first loop accumulates the
    start datetime of every period, a second loop formats each start together
    with its end.  The method leans on four operations of Python's [datetime]
    module ([datetime.fromisoformat], [timedelta], [datetime + timedelta] and
    [strftime]); they are modelled here after CPython's reference
    implementation ([Lib/_pydatetime.py]), proleptic Gregorian ordinals and
    range checks included, because the behaviour of [list] at the edges is
    exactly the behaviour of those operations.

    Python integers are unbounded: they are [Z].  Exceptions are explicit: a
    computation returns [result A], either [Ok a] or [Raise e]. *)

From Stdlib Require Import ZArith Lia Bool Ascii String.
From stdpp Require Import base list strings.

Local Open Scope Z_scope.

(** ** Exceptions *)

(** The exceptions the modelled code can raise. *)
Inductive exn : Set :=
  | ValueError          (* datetime.fromisoformat on a bad string *)
  | OverflowError       (* timedelta or datetime out of range *)
  | ArgumentTypeError.  (* the command-line validator *)

Inductive result (A : Type) : Type :=
  | Ok (a : A)
  | Raise (e : exn).

Arguments Ok {A} a.
Arguments Raise {A} e.

#[export] Instance result_ret : MRet result := fun A a => Ok a.
#[export] Instance result_bind : MBind result := fun A B f m =>
  match m with
  | Ok a => f a
  | Raise e => Raise e
  end.
#[export] Instance result_fmap : FMap result := fun A B f m =>
  match m with
  | Ok a => Ok (f a)
  | Raise e => Raise e
  end.

(** ** The calendar of Python's [datetime] module *)

Definition MINYEAR : Z := 1.
Definition MAXYEAR : Z := 9999.
(** [_MAXORDINAL = date.max.toordinal()], the ordinal of 9999-12-31. *)
Definition MAXORDINAL : Z := 3652059.

(** Python's tables are indexed from 1; index 0 holds the placeholder -1. *)
Definition DAYS_IN_MONTH_tbl : list Z :=
  [-1; 31; 28; 31; 30; 31; 30; 31; 31; 30; 31; 30; 31].
Definition DAYS_BEFORE_MONTH_tbl : list Z :=
  [-1; 0; 31; 59; 90; 120; 151; 181; 212; 243; 273; 304; 334].

Definition DAYS_IN_MONTH (month : Z) : Z :=
  nth (Z.to_nat month) DAYS_IN_MONTH_tbl (-1).
Definition DAYS_BEFORE_MONTH (month : Z) : Z :=
  nth (Z.to_nat month) DAYS_BEFORE_MONTH_tbl (-1).

(** [_is_leap]: year -> 1 if leap year, else 0. *)
Definition is_leap (year : Z) : bool :=
  (year mod 4 =? 0) && (negb (year mod 100 =? 0) || (year mod 400 =? 0)).

Definition b2z (b : bool) : Z := if b then 1 else 0.

(** [_days_before_year]: number of days before January 1st of [year]. *)
Definition days_before_year (year : Z) : Z :=
  let y := year - 1 in
  y * 365 + y / 4 - y / 100 + y / 400.

(** [_days_in_month]: number of days in that month in that year. *)
Definition days_in_month (year month : Z) : Z :=
  if (month =? 2) && is_leap year then 29 else DAYS_IN_MONTH month.

(** [_days_before_month]: days in the year preceding the first of the month. *)
Definition days_before_month (year month : Z) : Z :=
  DAYS_BEFORE_MONTH month + b2z ((month >? 2) && is_leap year).

(** [_ymd2ord]: year, month, day -> ordinal, with 0001-01-01 as day 1. *)
Definition ymd2ord (year month day : Z) : Z :=
  days_before_year year + days_before_month year month + day.

Definition DI400Y : Z := Eval cbv in days_before_year 401.
Definition DI100Y : Z := Eval cbv in days_before_year 101.
Definition DI4Y : Z := Eval cbv in days_before_year 5.

(** The tail of [_ord2ymd]: from the 0-based day [n] of a year and the
    year's leap flag to the month and the 1-based day of the month.  The
    month is first estimated as [(n + 50) >> 5], which is exact or one too
    large. *)
Definition month_day_of_yday (n : Z) (leapyear : bool) : Z * Z :=
  let month := Z.shiftr (n + 50) 5 in
  let preceding := DAYS_BEFORE_MONTH month + b2z ((month >? 2) && leapyear) in
  if preceding >? n then
    let month := month - 1 in
    let preceding :=
      preceding - (DAYS_IN_MONTH month + b2z ((month =? 2) && leapyear)) in
    (month, n - preceding + 1)
  else (month, n - preceding + 1).

(** [_ord2ymd]: ordinal -> (year, month, day), by the 400-, 100-, 4- and
    1-year cycles of the Gregorian calendar. *)
Definition ord2ymd (n : Z) : Z * Z * Z :=
  let n := n - 1 in
  let n400 := n / DI400Y in
  let n := n mod DI400Y in
  let year := n400 * 400 + 1 in
  let n100 := n / DI100Y in
  let n := n mod DI100Y in
  let n4 := n / DI4Y in
  let n := n mod DI4Y in
  let n1 := n / 365 in
  let n := n mod 365 in
  let year := year + (n100 * 100 + n4 * 4 + n1) in
  if (n1 =? 4) || (n100 =? 4) then (year - 1, 12, 31)
  else
    let leapyear := (n1 =? 3) && (negb (n4 =? 24) || (n100 =? 3)) in
    let '(month, day) := month_day_of_yday n leapyear in
    (year, month, day).

(** ** [datetime] values *)

(** A [datetime] as far as this program can observe it.  [list] only ever
    adds whole days and formats with ["%m%d"], so the time of day and the
    time zone, which whole-day arithmetic leaves untouched and the format
    never reads, are left out. *)
Record datetime : Set := mk_datetime { year : Z; month : Z; day : Z }.

(** The field checks of the [datetime] constructor ([_check_date_fields]). *)
Definition check_date_fields (y m d : Z) : bool :=
  (MINYEAR <=? y) && (y <=? MAXYEAR) &&
  (1 <=? m) && (m <=? 12) &&
  (1 <=? d) && (d <=? days_in_month y m).

Definition valid_datetime (dt : datetime) : Prop :=
  check_date_fields (year dt) (month dt) (day dt) = true.

Definition toordinal (dt : datetime) : Z :=
  ymd2ord (year dt) (month dt) (day dt).

Definition fromordinal (n : Z) : datetime :=
  let '(y, m, d) := ord2ymd n in mk_datetime y m d.

(** Python compares datetimes field by field ([_cmp] on the tuples). *)
Definition datetime_ltb (a b : datetime) : bool :=
  (year a <? year b) ||
  ((year a =? year b) &&
   ((month a <? month b) || ((month a =? month b) && (day a <? day b)))).

(** [timedelta(days=d)]: a span of whole days; its magnitude is limited to
    999999999 days. *)
Definition timedelta (days : Z) : result Z :=
  if Z.abs days >? 999999999 then Raise OverflowError else Ok days.

(** [0 < days <= _MAXORDINAL]: the ordinals of 0001-01-01 .. 9999-12-31. *)
Definition in_range (days : Z) : bool := (0 <? days) && (days <=? MAXORDINAL).

(** [datetime.__add__] with a whole-day [timedelta]: through the ordinal
    and back, refusing results outside the calendar. *)
Definition datetime_add (dt : datetime) (delta : Z) : result datetime :=
  let days := toordinal dt + delta in
  if in_range days then Ok (fromordinal days) else Raise OverflowError.

(** [dt + timedelta(days=d)] as the program writes it. *)
Definition add_days (dt : datetime) (d : Z) : result datetime :=
  delta ← timedelta d; datetime_add dt delta.

(** ** Strings: parsing and formatting *)

Definition digit_of (c : ascii) : option Z :=
  let n := Z.of_nat (nat_of_ascii c) in
  if (48 <=? n) && (n <=? 57) then Some (n - 48) else None.

Definition is_digit (c : ascii) : bool :=
  match digit_of c with Some _ => true | None => false end.

Definition digit_char (n : Z) : ascii := ascii_of_nat (Z.to_nat (48 + n)).

(** The calendar-date form [YYYY-MM-DD] that [list] documents for its
    [start_datetime] argument.  [None] when the text is not of that shape. *)
Definition parse_isoformat_date (dtstr : string) : option (Z * Z * Z) :=
  match dtstr with
  | String y1 (String y2 (String y3 (String y4 (String s1
      (String m1 (String m2 (String s2
        (String d1 (String d2 EmptyString))))))))) =>
      y1 ← digit_of y1; y2 ← digit_of y2; y3 ← digit_of y3; y4 ← digit_of y4;
      m1 ← digit_of m1; m2 ← digit_of m2;
      d1 ← digit_of d1; d2 ← digit_of d2;
      if Ascii.eqb s1 "-" && Ascii.eqb s2 "-"
      then Some (y1 * 1000 + y2 * 100 + y3 * 10 + y4, m1 * 10 + m2, d1 * 10 + d2)
      else None
  | _ => None
  end.

(** [datetime.fromisoformat] on the date form [YYYY-MM-DD]: the fields are
    read, then checked by the constructor; anything wrong is a [ValueError].
    Other ISO 8601 spellings, whose acceptance differs between Python
    versions, are not part of this model and count as rejected. *)
Definition fromisoformat (date_string : string) : result datetime :=
  match parse_isoformat_date date_string with
  | Some (y, m, d) =>
      if check_date_fields y m d then Ok (mk_datetime y m d)
      else Raise ValueError
  | None => Raise ValueError
  end.

(** ["%02d"] for a number between 0 and 99. *)
Definition pad2 (n : Z) : string :=
  String (digit_char (n / 10)) (String (digit_char (n mod 10)) EmptyString).

(** [dt.strftime("%m%d")]. *)
Definition strftime_md (dt : datetime) : string :=
  pad2 (month dt) +:+ pad2 (day dt).

(** ** The program *)

(** One element of the response: the dictionary [{"pay_period": item}]. *)
Record row : Set := mk_row { pay_period : string }.

(** The body of the first loop of [list]: the next value of
    [work_datetime].  A [datetime] is always true in a condition, so
    [if work_datetime] only tells [None] from a value. *)
Definition next_work_datetime (days_per_pay_period : Z) (start_datetime : string)
    (work_datetime : option datetime) : result datetime :=
  match work_datetime with
  | Some w => add_days w days_per_pay_period
  | None => fromisoformat start_datetime
  end.

(** The first loop, [for pay_period in range(number_of_pay_periods)], with
    the iterations still to run as a [nat]. *)
Fixpoint collect_datetimes (iterations : nat) (days_per_pay_period : Z)
    (start_datetime : string) (work_datetime : option datetime)
    (work_datetimes : list datetime) : result (list datetime) :=
  match iterations with
  | O => Ok work_datetimes
  | S iterations =>
      w ← next_work_datetime days_per_pay_period start_datetime work_datetime;
      collect_datetimes iterations days_per_pay_period start_datetime
        (Some w) (work_datetimes ++ [w])
  end.

(** The end of the period that starts at [work_datetime]. *)
Definition period_end (days_per_pay_period : Z) (work_datetime : datetime)
    : result datetime :=
  add_days work_datetime (days_per_pay_period - 1).

(** [f"e_{beg}_{end}"]. *)
Definition item_of (beg_dt end_dt : datetime) : string :=
  "e_" +:+ strftime_md beg_dt +:+ "_" +:+ strftime_md end_dt.

(** The second loop, [for work_datetime in work_datetimes]. *)
Fixpoint format_datetimes (days_per_pay_period : Z)
    (work_datetimes : list datetime) (response : list row)
    : result (list row) :=
  match work_datetimes with
  | [] => Ok response
  | work_datetime :: rest =>
      end_dt ← period_end days_per_pay_period work_datetime;
      let item := item_of work_datetime end_dt in
      format_datetimes days_per_pay_period rest
        (response ++ [mk_row item])
  end.

(** [range(n)] runs [n] times, and not at all when [n <= 0]. *)
Definition range_len (n : Z) : nat := Z.to_nat n.

(** [PayPeriods.list]. *)
Definition PayPeriods_list (days_per_pay_period number_of_pay_periods : Z)
    (start_datetime : string) : result (list row) :=
  work_datetimes ←
    collect_datetimes (range_len number_of_pay_periods) days_per_pay_period
      start_datetime None [];
  format_datetimes days_per_pay_period work_datetimes [].

(** The command-line validator [datetime_string]: the regular expression
    [^2[0-9][0-9][0-9]-[0-9][0-9]-[0-9][0-9]$] under [re.search].  In Python
    [$] also matches just before a final newline. *)
Definition datetime_regex_match (value : string) : bool :=
  match value with
  | String c1 (String y2 (String y3 (String y4 (String s1
      (String m1 (String m2 (String s2
        (String d1 (String d2 rest))))))))) =>
      Ascii.eqb c1 "2" && is_digit y2 && is_digit y3 && is_digit y4 &&
      Ascii.eqb s1 "-" && is_digit m1 && is_digit m2 &&
      Ascii.eqb s2 "-" && is_digit d1 && is_digit d2 &&
      (String.eqb rest "" || String.eqb rest (String "010" EmptyString))
  | _ => false
  end.

Definition datetime_string (value : string) : result string :=
  if datetime_regex_match value then Ok value else Raise ArgumentTypeError.

(** The line feed that [$] lets through at the end of a string. *)
Definition newline : string := String "010" EmptyString.

(** The [list] sub-command of the script, from its options to the response
    it hands to [tabulate].  [-d] and [-n] are integers when given and fall
    back on the two defaults; [-s] is required, and argparse passes it
    through [datetime_string] before [PayPeriods.list] is called. *)
Definition DEFAULT_DAYS_PER_PAY_PERIOD : Z := 14.
Definition DEFAULT_NUMBER_OF_PAY_PERIODS : Z := 26.

Definition main_list_command (days_per_pay_period number_of_pay_periods : option Z)
    (start_datetime : string) : result (list row) :=
  start_datetime ← datetime_string start_datetime;
  PayPeriods_list
    (default DEFAULT_DAYS_PER_PAY_PERIOD days_per_pay_period)
    (default DEFAULT_NUMBER_OF_PAY_PERIODS number_of_pay_periods)
    start_datetime.

(** ** Observations on a run of [list] *)

(** The periods [list] works with: every start its first loop collects,
    paired with the end its second loop computes for it. *)
Fixpoint period_ends (days_per_pay_period : Z) (work_datetimes : list datetime)
    : result (list (datetime * datetime)) :=
  match work_datetimes with
  | [] => Ok []
  | w :: rest =>
      e ← period_end days_per_pay_period w;
      ps ← period_ends days_per_pay_period rest;
      Ok ((w, e) :: ps)
  end.

Definition periods (days_per_pay_period number_of_pay_periods : Z)
    (start_datetime : string) : result (list (datetime * datetime)) :=
  work_datetimes ←
    collect_datetimes (range_len number_of_pay_periods) days_per_pay_period
      start_datetime None [];
  period_ends days_per_pay_period work_datetimes.

Definition row_of (p : datetime * datetime) : row := mk_row (item_of p.1 p.2).

(** The label pattern [e_\d{4}_\d{4}], matched against the whole string. *)
Definition label_matches (s : string) : bool :=
  match s with
  | String e (String u1 (String a1 (String a2 (String a3 (String a4
      (String u2 (String b1 (String b2 (String b3 (String b4
        EmptyString)))))))))) =>
      Ascii.eqb e "e" && Ascii.eqb u1 "_" &&
      is_digit a1 && is_digit a2 && is_digit a3 && is_digit a4 &&
      Ascii.eqb u2 "_" &&
      is_digit b1 && is_digit b2 && is_digit b3 && is_digit b4
  | _ => false
  end.

(** ** The closed form of the specification *)

(** Period [i] as the specification words it:
    [periodStart_i = startDate + i * daysPerPeriod days] and
    [periodEnd_i = periodStart_i + (daysPerPeriod - 1) days]. *)
Definition spec_period (daysPerPeriod : Z) (startDate : datetime) (i : nat)
    : result (datetime * datetime) :=
  periodStart ← add_days startDate (Z.of_nat i * daysPerPeriod);
  periodEnd ← add_days periodStart (daysPerPeriod - 1);
  Ok (periodStart, periodEnd).

Fixpoint spec_periods_from (daysPerPeriod : Z) (startDate : datetime)
    (i count : nat) : result (list (datetime * datetime)) :=
  match count with
  | O => Ok []
  | S count =>
      p ← spec_period daysPerPeriod startDate i;
      ps ← spec_periods_from daysPerPeriod startDate (S i) count;
      Ok (p :: ps)
  end.

(** Periods [0 .. periodCount - 1] in closed form. *)
Definition spec_periods (daysPerPeriod periodCount : Z) (startDate : datetime)
    : result (list (datetime * datetime)) :=
  spec_periods_from daysPerPeriod startDate 0 (range_len periodCount).

(** The same periods counted in ordinals from the ordinal [o] of the start
    date: where period [j] starts and where it ends. *)
Definition start_ordinal (o d : Z) (j : nat) : Z := o + Z.of_nat j * d.
Definition end_ordinal (o d : Z) (j : nat) : Z := start_ordinal o d j + (d - 1).

Definition period_at (o d : Z) (j : nat) : datetime * datetime :=
  (fromordinal (start_ordinal o d j), fromordinal (end_ordinal o d j)).

(** ** Properties of a sequence of periods *)

(** Period [i] runs from [startDate + i * d days] through that start
    [+ (d - 1) days]. *)
Definition spans (d : Z) (startDate : datetime)
    (ps : list (datetime * datetime)) : Prop :=
  forall (i : nat) p, ps !! i = Some p ->
    add_days startDate (Z.of_nat i * d) = Ok p.1 /\
    add_days p.1 (d - 1) = Ok p.2.

(** Each period starts the day after the one before it ends, and so,
    strictly later than that end. *)
Definition contiguous (ps : list (datetime * datetime)) : Prop :=
  forall (i : nat) p q, ps !! i = Some p -> ps !! S i = Some q ->
    add_days p.2 1 = Ok q.1 /\ datetime_ltb p.2 q.1 = true.

(** Later periods start strictly later. *)
Definition ascending (ps : list (datetime * datetime)) : Prop :=
  forall (i j : nat) p q, (i < j)%nat ->
    ps !! i = Some p -> ps !! j = Some q -> datetime_ltb p.1 q.1 = true.

(** ** Decision procedures used in proofs by enumeration *)

(** What [month_day_of_yday] owes for day [n] of a year: a month in 1..12, a
    day within that month, and as many days before it as [n] says. *)
Definition month_day_okb (leapyear : bool) (n : Z) : bool :=
  let '(m, d) := month_day_of_yday n leapyear in
  (1 <=? m) && (m <=? 12) && (1 <=? d) &&
  (d <=? (if (m =? 2) && leapyear then 29 else DAYS_IN_MONTH m)) &&
  (DAYS_BEFORE_MONTH m + b2z ((m >? 2) && leapyear) + d =? n + 1).

(** * Properties of the calendar *)

Section Calendar.

(** Division and remainder by literals, turned into linear facts. *)
Local Ltac euclid := Z.div_mod_to_equations; lia.

(** A year is [400 a + 100 b + 4 c + e + 1] for cycle counts [a], [b], [c],
    [e]; the days before it are counted cycle by cycle. *)
Lemma days_before_year_cycles (a b c e : Z) :
  0 <= b <= 3 -> 0 <= c <= 24 -> 0 <= e <= 3 ->
  days_before_year (400 * a + 100 * b + 4 * c + e + 1) =
    DI400Y * a + DI100Y * b + DI4Y * c + 365 * e.
Proof.
  intros Hb Hc He. unfold days_before_year, DI400Y, DI100Y, DI4Y. euclid.
Qed.

Lemma is_leap_cycles (a b c e : Z) :
  0 <= b <= 3 -> 0 <= c <= 24 -> 0 <= e <= 3 ->
  is_leap (400 * a + 100 * b + 4 * c + e + 1) =
    (e =? 3) && (negb (c =? 24) || (b =? 3)).
Proof.
  intros Hb Hc He. unfold is_leap.
  destruct (Z.eqb_spec e 3), (Z.eqb_spec c 24), (Z.eqb_spec b 3); cbn;
    repeat match goal with
    | |- context [ ?x =? 0 ] => destruct (Z.eqb_spec x 0); cbn
    end; try reflexivity; exfalso; euclid.
Qed.

Lemma days_before_year_succ (y : Z) :
  days_before_year (y + 1) = days_before_year y + 365 + b2z (is_leap y).
Proof.
  unfold days_before_year, is_leap, b2z.
  repeat match goal with
  | |- context [ ?x =? 0 ] => destruct (Z.eqb_spec x 0); cbn
  end; euclid.
Qed.

Lemma days_before_year_mono (y y' : Z) :
  y <= y' -> days_before_year y <= days_before_year y'.
Proof. unfold days_before_year. intros Hy. euclid. Qed.

Lemma month_day_of_yday_all :
  forallb (fun n => month_day_okb true n && month_day_okb false n)
    (seqZ 0 365) = true.
Proof. vm_compute. reflexivity. Qed.

Lemma month_day_of_yday_spec (n : Z) (leapyear : bool) :
  0 <= n < 365 ->
  exists m d,
    month_day_of_yday n leapyear = (m, d) /\
    1 <= m <= 12 /\
    1 <= d <= (if (m =? 2) && leapyear then 29 else DAYS_IN_MONTH m) /\
    DAYS_BEFORE_MONTH m + b2z ((m >? 2) && leapyear) + d = n + 1.
Proof.
  intros Hn.
  pose proof month_day_of_yday_all as Hall.
  rewrite forallb_forall in Hall.
  assert (Hin : In n (seqZ 0 365)).
  { apply list_elem_of_In, elem_of_seqZ. lia. }
  specialize (Hall n Hin). apply andb_prop in Hall as [Ht Hf].
  assert (Hok : month_day_okb leapyear n = true) by (destruct leapyear; done).
  clear Ht Hf Hin. unfold month_day_okb in Hok.
  destruct (month_day_of_yday n leapyear) as [m d].
  exists m, d. split; [reflexivity|].
  repeat (apply andb_prop in Hok as [Hok ?]).
  lia.
Qed.

(** Every month ends where the next one begins, and the twelfth ends with
    the year. *)
Lemma days_before_month_succ (y m : Z) :
  1 <= m <= 11 ->
  days_before_month y (m + 1) = days_before_month y m + days_in_month y m.
Proof.
  intros Hm. unfold days_before_month, days_in_month.
  assert (Hcases : m = 1 \/ m = 2 \/ m = 3 \/ m = 4 \/ m = 5 \/ m = 6 \/
                   m = 7 \/ m = 8 \/ m = 9 \/ m = 10 \/ m = 11) by lia.
  destruct (is_leap y);
    repeat (destruct Hcases as [-> | Hcases]; [reflexivity|]);
    subst; reflexivity.
Qed.

Lemma days_before_month_december (y : Z) :
  days_before_month y 12 + days_in_month y 12 = 365 + b2z (is_leap y).
Proof. unfold days_before_month, days_in_month. by destruct (is_leap y). Qed.

Lemma days_in_month_pos (y m : Z) : 1 <= m <= 12 -> 28 <= days_in_month y m <= 31.
Proof.
  intros Hm. unfold days_in_month.
  assert (Hcases : m = 1 \/ m = 2 \/ m = 3 \/ m = 4 \/ m = 5 \/ m = 6 \/
                   m = 7 \/ m = 8 \/ m = 9 \/ m = 10 \/ m = 11 \/ m = 12) by lia.
  destruct (is_leap y);
    repeat (destruct Hcases as [-> | Hcases]; [vm_compute; intuition discriminate|]);
    subst; vm_compute; intuition discriminate.
Qed.

(** December 31st, in the tables. *)
Local Ltac december :=
  change (DAYS_IN_MONTH 12) with 31;
  change (DAYS_BEFORE_MONTH 12) with 334;
  change (12 =? 2) with false; change (12 >? 2) with true;
  change (3 =? 3) with true; change (24 =? 24) with true;
  cbn [andb orb negb b2z].

(** The cycle counts [_ord2ymd] extracts from an ordinal. *)
Lemma ordinal_cycles (n : Z) :
  exists a b c e r,
    n - 1 = DI400Y * a + DI100Y * b + DI4Y * c + 365 * e + r /\
    a = (n - 1) / DI400Y /\
    b = (n - 1) mod DI400Y / DI100Y /\
    c = (n - 1) mod DI400Y mod DI100Y / DI4Y /\
    e = (n - 1) mod DI400Y mod DI100Y mod DI4Y / 365 /\
    r = (n - 1) mod DI400Y mod DI100Y mod DI4Y mod 365 /\
    0 <= b <= 4 /\ 0 <= c <= 24 /\ 0 <= e <= 4 /\ 0 <= r < 365 /\
    (b = 4 -> c = 0 /\ e = 0 /\ r = 0) /\
    (e = 4 -> r = 0 /\ (c = 24 -> b = 4)).
Proof.
  do 5 eexists. split; [|do 5 (split; [reflexivity|])];
    unfold DI400Y, DI100Y, DI4Y; euclid.
Qed.

(** [_ord2ymd] yields a month and a day that exist, of the year and day the
    ordinal counts: [_ymd2ord] undoes it. *)
Lemma ord2ymd_spec (n : Z) :
  exists y m d,
    ord2ymd n = (y, m, d) /\
    1 <= m <= 12 /\ 1 <= d <= days_in_month y m /\
    ymd2ord y m d = n /\
    (1 <= n <= MAXORDINAL -> MINYEAR <= y <= MAXYEAR).
Proof.
  destruct (ordinal_cycles n)
    as (a & b & c & e & r & Hn & Ha & Hb & Hc & He & Hr
        & Bb & Bc & Be & Br & Hb4 & He4).
  unfold ord2ymd. rewrite <- Hr, <- He, <- Hc, <- Hb, <- Ha.
  clear Ha Hb Hc He Hr.
  unfold MINYEAR, MAXYEAR, MAXORDINAL, DI400Y, DI100Y, DI4Y in *.
  destruct (Z.eqb_spec e 4) as [E4 | E4]; cbn [orb].
  - (* the last day of a leap year, at the end of a 4-year cycle *)
    destruct (He4 E4) as [-> Hc24].
    assert (Hc23 : b = 4 \/ (b <= 3 /\ c <= 23)) by lia.
    destruct Hc23 as [B4 | [B3 C23]]; [destruct (Hb4 B4); lia|].
    do 3 eexists. split; [reflexivity|].
    replace (a * 400 + 1 + (b * 100 + c * 4 + e) - 1)
      with (400 * a + 100 * b + 4 * c + 3 + 1) by lia.
    unfold ymd2ord, days_in_month, days_before_month.
    rewrite days_before_year_cycles, is_leap_cycles by lia.
    replace (c =? 24) with false by (symmetry; apply Z.eqb_neq; lia).
    unfold DI400Y, DI100Y, DI4Y. december. lia.
  - destruct (Z.eqb_spec b 4) as [B4 | B4]; cbn [orb].
    + (* the last day of a 400-year cycle *)
      destruct (Hb4 B4) as (-> & -> & ->). subst b.
      do 3 eexists. split; [reflexivity|].
      replace (a * 400 + 1 + (4 * 100 + 0 * 4 + 0) - 1)
        with (400 * a + 100 * 3 + 4 * 24 + 3 + 1) by lia.
      unfold ymd2ord, days_in_month, days_before_month.
      rewrite days_before_year_cycles, is_leap_cycles by lia.
      unfold DI400Y, DI100Y, DI4Y. december. lia.
    + (* any other day: the year by the cycles, month and day by the tables *)
      replace (a * 400 + 1 + (b * 100 + c * 4 + e))
        with (400 * a + 100 * b + 4 * c + e + 1) by lia.
      destruct (month_day_of_yday_spec r
                  ((e =? 3) && (negb (c =? 24) || (b =? 3))) Br)
        as (m & d & -> & Bm & Bd & Hyd).
      do 3 eexists. split; [reflexivity|].
      unfold ymd2ord, days_in_month, days_before_month.
      rewrite days_before_year_cycles, is_leap_cycles by lia.
      unfold DI400Y, DI100Y, DI4Y. lia.
Qed.

Lemma days_before_month_mono (y m m' : Z) :
  1 <= m -> m < m' -> m' <= 12 ->
  days_before_month y m + days_in_month y m <= days_before_month y m'.
Proof.
  intros H1 Hlt H12. unfold days_before_month, days_in_month.
  assert (Hm : m = 1 \/ m = 2 \/ m = 3 \/ m = 4 \/ m = 5 \/ m = 6 \/
               m = 7 \/ m = 8 \/ m = 9 \/ m = 10 \/ m = 11) by lia.
  assert (Hm' : m' = 2 \/ m' = 3 \/ m' = 4 \/ m' = 5 \/ m' = 6 \/
                m' = 7 \/ m' = 8 \/ m' = 9 \/ m' = 10 \/ m' = 11 \/
                m' = 12) by lia.
  destruct (is_leap y);
    repeat (destruct Hm as [-> | Hm]);
    repeat (destruct Hm' as [-> | Hm']);
    subst; first [lia | by vm_compute].
Qed.

(** The day of the year of a date that exists lies within the year. *)
Lemma day_of_year_bounds (y m d : Z) :
  1 <= m <= 12 -> 1 <= d <= days_in_month y m ->
  1 <= days_before_month y m + d <= 365 + b2z (is_leap y).
Proof.
  intros Hm Hd. pose proof (days_before_month_december y) as Hdec.
  destruct (Z.eq_dec m 12) as [-> | Hne].
  - assert (0 <= days_before_month y 12) by
      (unfold days_before_month; destruct (is_leap y); by vm_compute).
    lia.
  - pose proof (days_before_month_mono y m 12).
    pose proof (days_in_month_pos y 12).
    assert (0 <= days_before_month y m).
    { destruct (Z.eq_dec m 1) as [-> | Hne1].
      - unfold days_before_month; destruct (is_leap y); by vm_compute.
      - pose proof (days_before_month_mono y 1 m).
        pose proof (days_in_month_pos y 1).
        assert (0 <= days_before_month y 1) by
          (unfold days_before_month; destruct (is_leap y); by vm_compute).
        lia. }
    lia.
Qed.

Lemma check_date_fields_spec (y m d : Z) :
  check_date_fields y m d = true <->
  MINYEAR <= y <= MAXYEAR /\ 1 <= m <= 12 /\ 1 <= d <= days_in_month y m.
Proof. unfold check_date_fields. rewrite !andb_true_iff, !Z.leb_le. lia. Qed.

(** Field-by-field comparison of dates that exist agrees with the order of
    their ordinals. *)
Lemma ymd2ord_lt (y m d y' m' d' : Z) :
  1 <= m <= 12 -> 1 <= d <= days_in_month y m ->
  1 <= m' <= 12 -> 1 <= d' <= days_in_month y' m' ->
  y < y' \/ (y = y' /\ (m < m' \/ (m = m' /\ d < d'))) ->
  ymd2ord y m d < ymd2ord y' m' d'.
Proof.
  intros Hm Hd Hm' Hd' Hlt. unfold ymd2ord.
  pose proof (day_of_year_bounds y m d Hm Hd).
  pose proof (day_of_year_bounds y' m' d' Hm' Hd').
  destruct Hlt as [Hy | [<- [Hmm | [<- Hdd]]]].
  - pose proof (days_before_year_succ y).
    pose proof (days_before_year_mono (y + 1) y'). lia.
  - pose proof (days_before_month_mono y m m'). lia.
  - lia.
Qed.

Lemma ymd2ord_inj (y m d y' m' d' : Z) :
  1 <= m <= 12 -> 1 <= d <= days_in_month y m ->
  1 <= m' <= 12 -> 1 <= d' <= days_in_month y' m' ->
  ymd2ord y m d = ymd2ord y' m' d' ->
  y = y' /\ m = m' /\ d = d'.
Proof.
  intros Hm Hd Hm' Hd' Heq.
  destruct (Z.lt_trichotomy y y') as [Hy | [<- | Hy]].
  - pose proof (ymd2ord_lt y m d y' m' d' Hm Hd Hm' Hd'). lia.
  - destruct (Z.lt_trichotomy m m') as [Hmm | [<- | Hmm]].
    + pose proof (ymd2ord_lt y m d y m' d' Hm Hd Hm' Hd'). lia.
    + unfold ymd2ord in Heq. lia.
    + pose proof (ymd2ord_lt y m' d' y m d Hm' Hd' Hm Hd). lia.
  - pose proof (ymd2ord_lt y' m' d' y m d Hm' Hd' Hm Hd). lia.
Qed.

(** ** [datetime] values and their ordinals *)

Lemma valid_datetime_spec (dt : datetime) :
  valid_datetime dt <->
  MINYEAR <= year dt <= MAXYEAR /\ 1 <= month dt <= 12 /\
  1 <= day dt <= days_in_month (year dt) (month dt).
Proof. apply check_date_fields_spec. Qed.

Lemma toordinal_range (dt : datetime) :
  valid_datetime dt -> 1 <= toordinal dt <= MAXORDINAL.
Proof.
  rewrite valid_datetime_spec. unfold MINYEAR, MAXYEAR, MAXORDINAL.
  intros (Hy & Hm & Hd). unfold toordinal, ymd2ord.
  pose proof (day_of_year_bounds _ _ _ Hm Hd).
  pose proof (days_before_year_succ (year dt)).
  pose proof (days_before_year_mono 1 (year dt)).
  pose proof (days_before_year_mono (year dt + 1) 10000).
  change (days_before_year 1) with 0 in *.
  change (days_before_year 10000) with 3652059 in *.
  lia.
Qed.

Lemma toordinal_fromordinal (n : Z) : toordinal (fromordinal n) = n.
Proof.
  unfold toordinal, fromordinal.
  destruct (ord2ymd_spec n) as (y & m & d & -> & _ & _ & Hn & _). exact Hn.
Qed.

Lemma fromordinal_valid (n : Z) :
  1 <= n <= MAXORDINAL -> valid_datetime (fromordinal n).
Proof.
  intros Hn. rewrite valid_datetime_spec. unfold fromordinal.
  destruct (ord2ymd_spec n) as (y & m & d & -> & Hm & Hd & _ & Hy). cbn.
  auto.
Qed.

Lemma toordinal_inj (a b : datetime) :
  valid_datetime a -> valid_datetime b -> toordinal a = toordinal b -> a = b.
Proof.
  rewrite !valid_datetime_spec. intros (_ & Hm & Hd) (_ & Hm' & Hd') Heq.
  destruct a as [y m d], b as [y' m' d']; cbn in *.
  destruct (ymd2ord_inj y m d y' m' d') as (-> & -> & ->); auto.
Qed.

Lemma fromordinal_toordinal (dt : datetime) :
  valid_datetime dt -> fromordinal (toordinal dt) = dt.
Proof.
  intros Hv. apply toordinal_inj; [| exact Hv | apply toordinal_fromordinal].
  apply fromordinal_valid, toordinal_range, Hv.
Qed.

Lemma datetime_ltb_toordinal (a b : datetime) :
  valid_datetime a -> valid_datetime b ->
  datetime_ltb a b = true <-> toordinal a < toordinal b.
Proof.
  rewrite !valid_datetime_spec. intros (_ & Hm & Hd) (_ & Hm' & Hd').
  unfold datetime_ltb, toordinal.
  rewrite !orb_true_iff, !andb_true_iff, !Z.ltb_lt, !Z.eqb_eq.
  split.
  - intros Hlt. apply ymd2ord_lt; [done..|]. lia.
  - intros Hlt.
    pose proof (ymd2ord_lt (year b) (month b) (day b)
                  (year a) (month a) (day a) Hm' Hd' Hm Hd) as Hrev.
    destruct (Z.eq_dec (year a) (year b)) as [Hy | Hy]; [|lia].
    destruct (Z.eq_dec (month a) (month b)) as [Hmm | Hmm]; [|lia].
    unfold ymd2ord in Hlt. rewrite Hy, Hmm in Hlt. lia.
Qed.

End Calendar.

(** * Properties of the program *)

Section Program.

Implicit Types (d n o : Z) (s : string) (w : datetime) (k i j : nat).

Lemma in_range_spec o : in_range o = true <-> 1 <= o <= MAXORDINAL.
Proof. unfold in_range. rewrite andb_true_iff, Z.ltb_lt, Z.leb_le. lia. Qed.

Lemma in_range_toordinal w : valid_datetime w -> in_range (toordinal w) = true.
Proof. intros Hv. apply in_range_spec, toordinal_range, Hv. Qed.

(** Adding days to a date that exists: through the ordinal, or overflow.
    The limit on [timedelta] never decides: a span that large leaves the
    calendar anyway. *)
Lemma add_days_valid w d :
  valid_datetime w ->
  add_days w d =
    if in_range (toordinal w + d) then Ok (fromordinal (toordinal w + d))
    else Raise OverflowError.
Proof.
  intros Hv. pose proof (toordinal_range w Hv) as Hr.
  unfold add_days, timedelta, datetime_add, MAXORDINAL in *.
  destruct (Z.gtb_spec (Z.abs d) 999999999) as [Hbig | Hsmall]; cbn.
  - destruct (in_range (toordinal w + d)) eqn:Hin; [|reflexivity].
    apply in_range_spec in Hin. unfold MAXORDINAL in Hin. lia.
  - reflexivity.
Qed.

Lemma add_days_Ok w d w' :
  valid_datetime w -> add_days w d = Ok w' ->
  valid_datetime w' /\ toordinal w' = toordinal w + d /\
  w' = fromordinal (toordinal w + d) /\ in_range (toordinal w + d) = true.
Proof.
  intros Hv. rewrite (add_days_valid w d Hv).
  destruct (in_range (toordinal w + d)) eqn:Hin; [|discriminate].
  intros [= <-]. split_and!; [|apply toordinal_fromordinal|done..].
  apply fromordinal_valid, in_range_spec, Hin.
Qed.

Lemma fromisoformat_valid s w : fromisoformat s = Ok w -> valid_datetime w.
Proof.
  unfold fromisoformat, valid_datetime.
  destruct (parse_isoformat_date s) as [[[y m] d] |]; [|discriminate].
  destruct (check_date_fields y m d) eqn:Hc; [|discriminate].
  by intros [= <-].
Qed.


Lemma forallb_andb {A} (f g : A -> bool) (l : list A) :
  forallb (fun x => f x && g x) l = forallb f l && forallb g l.
Proof.
  induction l as [|x l IH]; [reflexivity|]. cbn. rewrite IH.
  destruct (f x), (g x), (forallb f l); reflexivity.
Qed.

(** *** The first loop *)

(** Once [work_datetime] is set, every iteration steps one period ahead:
    after period [i], the loop collects periods [i+1 .. i+k], or overflows
    at the first one that leaves the calendar. *)
Lemma collect_datetimes_from k : forall i d s w o acc,
  valid_datetime w -> toordinal w = start_ordinal o d i ->
  collect_datetimes k d s (Some w) acc =
    if forallb (fun j => in_range (start_ordinal o d j)) (seq (S i) k)
    then Ok (acc ++ map (fun j => fromordinal (start_ordinal o d j))
                      (seq (S i) k))
    else Raise OverflowError.
Proof.
  induction k as [|k IH]; intros i d s w o acc Hv Hw.
  - cbn. by rewrite app_nil_r.
  - cbn [collect_datetimes next_work_datetime seq forallb map].
    rewrite (add_days_valid w d Hv).
    replace (toordinal w + d) with (start_ordinal o d (S i))
      by (unfold start_ordinal in *; lia).
    destruct (in_range (start_ordinal o d (S i))) eqn:Hin; [|reflexivity].
    cbn [mbind result_bind andb].
    rewrite (IH (S i) d s _ o).
    + by rewrite <- app_assoc.
    + apply fromordinal_valid, in_range_spec, Hin.
    + apply toordinal_fromordinal.
Qed.

(** The whole first loop on a start date that parses: the starts of periods
    [0 .. k-1], counted from the parsed date. *)
Lemma collect_datetimes_parsed k d s w :
  fromisoformat s = Ok w ->
  collect_datetimes k d s None [] =
    if forallb (fun j => in_range (start_ordinal (toordinal w) d j)) (seq 0 k)
    then Ok (map (fun j => fromordinal (start_ordinal (toordinal w) d j))
               (seq 0 k))
    else Raise OverflowError.
Proof.
  intros Hs. pose proof (fromisoformat_valid s w Hs) as Hv.
  destruct k as [|k]; [reflexivity|].
  cbn [collect_datetimes next_work_datetime seq forallb map].
  rewrite Hs. cbn [mbind result_bind].
  assert (H0 : start_ordinal (toordinal w) d 0 = toordinal w)
    by (unfold start_ordinal; lia).
  rewrite (collect_datetimes_from k 0 d s w (toordinal w)) by done.
  rewrite H0, (in_range_toordinal w Hv), (fromordinal_toordinal w Hv).
  reflexivity.
Qed.

Lemma collect_datetimes_unparsed k d s e :
  fromisoformat s = Raise e ->
  collect_datetimes (S k) d s None [] = Raise e.
Proof. intros Hs. cbn. by rewrite Hs. Qed.

(** *** The second loop *)

(** The second loop formats the periods one by one, in order. *)
Lemma format_datetimes_period_ends d (ws : list datetime) : forall response,
  format_datetimes d ws response =
    (fun ps => response ++ map row_of ps) <$> period_ends d ws.
Proof.
  induction ws as [|w ws IH]; intros response.
  - cbn. by rewrite app_nil_r.
  - cbn [format_datetimes period_ends].
    destruct (period_end d w) as [e | err]; [|reflexivity].
    cbn [mbind result_bind]. rewrite IH.
    destruct (period_ends d ws) as [ps | err]; [|reflexivity].
    cbn. by rewrite <- app_assoc.
Qed.

(** The ends of periods whose starts are on the calendar. *)
Lemma period_ends_starts d o (js : list nat) :
  forallb (fun j => in_range (start_ordinal o d j)) js = true ->
  period_ends d (map (fun j => fromordinal (start_ordinal o d j)) js) =
    if forallb (fun j => in_range (end_ordinal o d j)) js
    then Ok (map (period_at o d) js)
    else Raise OverflowError.
Proof.
  induction js as [|j js IH]; [reflexivity|].
  cbn [forallb map period_ends]. intros [Hj Hjs]%andb_prop.
  unfold period_end. rewrite add_days_valid
    by (apply fromordinal_valid, in_range_spec, Hj).
  rewrite toordinal_fromordinal. fold (end_ordinal o d j).
  destruct (in_range (end_ordinal o d j)); [|reflexivity].
  cbn [mbind result_bind andb]. rewrite (IH Hjs).
  destruct (forallb (fun j => in_range (end_ordinal o d j)) js); reflexivity.
Qed.

(** *** The method as a whole *)

(** [list] formats the periods it works with, one row per period. *)
Lemma list_periods d n s :
  PayPeriods_list d n s = map row_of <$> periods d n s.
Proof.
  unfold PayPeriods_list, periods.
  destruct (collect_datetimes _ d s None []) as [ws | err]; [|reflexivity].
  cbn [mbind result_bind]. apply format_datetimes_period_ends.
Qed.

(** On a start date that parses, [list] works with the periods counted in
    ordinals from it, provided each of their dates is on the calendar, and
    overflows otherwise. *)
Lemma periods_parsed d n s w :
  fromisoformat s = Ok w ->
  periods d n s =
    if forallb (fun j => in_range (start_ordinal (toordinal w) d j))
         (seq 0 (range_len n)) &&
       forallb (fun j => in_range (end_ordinal (toordinal w) d j))
         (seq 0 (range_len n))
    then Ok (map (period_at (toordinal w) d) (seq 0 (range_len n)))
    else Raise OverflowError.
Proof.
  intros Hs. unfold periods. rewrite (collect_datetimes_parsed _ d s w Hs).
  destruct (forallb _ _) eqn:Hstarts; [|reflexivity].
  cbn [mbind result_bind andb]. by apply period_ends_starts.
Qed.

(** The closed form of the specification, counted in ordinals. *)
Lemma spec_periods_from_ordinals d w k : forall i,
  valid_datetime w ->
  spec_periods_from d w i k =
    if forallb (fun j => in_range (start_ordinal (toordinal w) d j) &&
                         in_range (end_ordinal (toordinal w) d j)) (seq i k)
    then Ok (map (period_at (toordinal w) d) (seq i k))
    else Raise OverflowError.
Proof.
  induction k as [|k IH]; intros i Hv; [reflexivity|].
  cbn [spec_periods_from seq forallb map]. unfold spec_period.
  rewrite (add_days_valid w _ Hv). fold (start_ordinal (toordinal w) d i).
  destruct (in_range (start_ordinal (toordinal w) d i)) eqn:Hi; [|reflexivity].
  cbn [mbind result_bind andb].
  rewrite add_days_valid by (apply fromordinal_valid, in_range_spec, Hi).
  rewrite toordinal_fromordinal. fold (end_ordinal (toordinal w) d i).
  destruct (in_range (end_ordinal (toordinal w) d i)); [|reflexivity].
  cbn [mbind result_bind andb]. rewrite (IH (S i) Hv).
  destruct (forallb _ (seq (S i) k)); reflexivity.
Qed.

(** The code and the closed form agree as computations: on the periods
    when all of them are on the calendar, on the overflow otherwise. *)
Lemma periods_spec_periods d n s w :
  fromisoformat s = Ok w -> periods d n s = spec_periods d n w.
Proof.
  intros Hs. rewrite (periods_parsed d n s w Hs). unfold spec_periods.
  rewrite spec_periods_from_ordinals by (by eapply fromisoformat_valid).
  by rewrite forallb_andb.
Qed.

(** What a run of [list] that returns has worked with. *)
Lemma periods_Ok d n s w ps :
  fromisoformat s = Ok w -> periods d n s = Ok ps ->
  ps = map (period_at (toordinal w) d) (seq 0 (range_len n)) /\
  forall j, (j < range_len n)%nat ->
    in_range (start_ordinal (toordinal w) d j) = true /\
    in_range (end_ordinal (toordinal w) d j) = true.
Proof.
  intros Hs. rewrite (periods_parsed d n s w Hs).
  destruct (forallb (fun j => in_range (start_ordinal _ d j)) _) eqn:Hst;
    [|discriminate].
  destruct (forallb (fun j => in_range (end_ordinal _ d j)) _) eqn:Hen;
    [|discriminate].
  cbn [andb]. intros [= <-]. split; [reflexivity|].
  intros j Hj. rewrite forallb_forall in Hst, Hen.
  assert (Hin : In j (seq 0 (range_len n))) by (apply in_seq; lia).
  auto.
Qed.

(** When every date is on the calendar, [list] returns. *)
Lemma periods_in_range d n s w :
  fromisoformat s = Ok w ->
  (forall j, (j < range_len n)%nat ->
     in_range (start_ordinal (toordinal w) d j) = true /\
     in_range (end_ordinal (toordinal w) d j) = true) ->
  periods d n s = Ok (map (period_at (toordinal w) d) (seq 0 (range_len n))).
Proof.
  intros Hs Hall. rewrite (periods_parsed d n s w Hs).
  assert (Hst : forallb (fun j => in_range (start_ordinal (toordinal w) d j))
                  (seq 0 (range_len n)) = true).
  { apply forallb_forall. intros j [_ Hj]%in_seq. apply Hall. lia. }
  assert (Hen : forallb (fun j => in_range (end_ordinal (toordinal w) d j))
                  (seq 0 (range_len n)) = true).
  { apply forallb_forall. intros j [_ Hj]%in_seq. apply Hall. lia. }
  by rewrite Hst, Hen.
Qed.

(** With no period to list nothing is parsed; with at least one, a start
    date that does not parse ends the run at once. *)
Lemma periods_no_iteration d n s : n <= 0 -> periods d n s = Ok [].
Proof.
  intros Hn. unfold periods, range_len.
  by replace (Z.to_nat n) with 0%nat by lia.
Qed.

Lemma periods_unparsed d n s e :
  1 <= n -> fromisoformat s = Raise e -> periods d n s = Raise e.
Proof.
  intros Hn Hs. unfold periods, range_len.
  destruct (Z.to_nat n) as [|k] eqn:Hk; [lia|].
  by rewrite (collect_datetimes_unparsed k d s e Hs).
Qed.

Lemma lookup_period_at (o d : Z) (k i : nat) (p : datetime * datetime) :
  map (period_at o d) (seq 0 k) !! i = Some p ->
  (i < k)%nat /\ p = period_at o d i.
Proof.
  intros Hl. apply list_lookup_fmap_Some in Hl as (j & -> & Hj).
  apply lookup_seq in Hj as [-> Hlt]. by split.
Qed.

(** The dates of a period that is on the calendar. *)
Lemma period_at_valid o d j :
  in_range (start_ordinal o d j) = true ->
  in_range (end_ordinal o d j) = true ->
  valid_datetime (period_at o d j).1 /\ valid_datetime (period_at o d j).2 /\
  toordinal (period_at o d j).1 = start_ordinal o d j /\
  toordinal (period_at o d j).2 = end_ordinal o d j.
Proof.
  intros Hs He. cbn [period_at fst snd].
  split_and!; try apply toordinal_fromordinal;
    by apply fromordinal_valid, in_range_spec.
Qed.

(** *** Labels *)

Lemma is_digit_digit_char (k : Z) : 0 <= k <= 9 -> is_digit (digit_char k) = true.
Proof.
  intros Hk.
  assert (Hcases : k = 0 \/ k = 1 \/ k = 2 \/ k = 3 \/ k = 4 \/ k = 5 \/
                   k = 6 \/ k = 7 \/ k = 8 \/ k = 9) by lia.
  repeat (destruct Hcases as [-> | Hcases]; [reflexivity|]).
  by subst.
Qed.

(** A valid date formats as four digits. *)
Lemma label_matches_item_of (a b : datetime) :
  valid_datetime a -> valid_datetime b -> label_matches (item_of a b) = true.
Proof.
  rewrite !valid_datetime_spec. intros (_ & Hma & Hda) (_ & Hmb & Hdb).
  pose proof (days_in_month_pos (year a) (month a) Hma).
  pose proof (days_in_month_pos (year b) (month b) Hmb).
  unfold item_of, strftime_md, pad2. cbv [String.append]. cbn.
  rewrite !is_digit_digit_char; [reflexivity|..]; Z.div_mod_to_equations; lia.
Qed.

(** *** Periods counted in ordinals *)

Section Ordinals.

Variables (o d : Z) (k : nat).
Hypothesis on_calendar : forall j, (j < k)%nat ->
  in_range (start_ordinal o d j) = true /\
  in_range (end_ordinal o d j) = true.

Lemma period_at_spans w :
  valid_datetime w -> toordinal w = o ->
  spans d w (map (period_at o d) (seq 0 k)).
Proof.
  intros Hv Ho i p [Hi ->]%lookup_period_at.
  destruct (on_calendar i Hi) as [Hst Hen].
  destruct (period_at_valid o d i Hst Hen) as (Hv1 & _ & Ho1 & _).
  split.
  - rewrite (add_days_valid w _ Hv), Ho.
    change (o + Z.of_nat i * d) with (start_ordinal o d i).
    by rewrite Hst.
  - rewrite (add_days_valid _ _ Hv1), Ho1.
    change (start_ordinal o d i + (d - 1)) with (end_ordinal o d i).
    by rewrite Hen.
Qed.

Lemma period_at_contiguous : contiguous (map (period_at o d) (seq 0 k)).
Proof.
  intros i p q [Hi ->]%lookup_period_at [HSi ->]%lookup_period_at.
  destruct (on_calendar i Hi) as [Hst Hen].
  destruct (on_calendar (S i) HSi) as [Hst' Hen'].
  destruct (period_at_valid o d i Hst Hen) as (_ & Hv2 & _ & Ho2).
  destruct (period_at_valid o d (S i) Hst' Hen') as (Hv1' & _ & Ho1' & _).
  assert (Hnext : end_ordinal o d i + 1 = start_ordinal o d (S i))
    by (unfold end_ordinal, start_ordinal; lia).
  split.
  - rewrite (add_days_valid _ _ Hv2), Ho2, Hnext. by rewrite Hst'.
  - apply datetime_ltb_toordinal; [done..|]. rewrite Ho2, Ho1'. lia.
Qed.

Lemma period_at_ascending :
  1 <= d -> ascending (map (period_at o d) (seq 0 k)).
Proof.
  intros Hd i j p q Hij [Hi ->]%lookup_period_at [Hj ->]%lookup_period_at.
  destruct (on_calendar i Hi) as [Hst Hen].
  destruct (on_calendar j Hj) as [Hst' Hen'].
  destruct (period_at_valid o d i Hst Hen) as (Hv1 & _ & Ho1 & _).
  destruct (period_at_valid o d j Hst' Hen') as (Hv1' & _ & Ho1' & _).
  apply datetime_ltb_toordinal; [done..|]. rewrite Ho1, Ho1'.
  unfold start_ordinal. nia.
Qed.

End Ordinals.

End Program.

(** * The behaviour of [list] *)

(** The scenarios of the usage notes. *)
Example list_fortnights :
  PayPeriods_list 14 3 "2026-01-01" =
    Ok [mk_row "e_0101_0114"; mk_row "e_0115_0128"; mk_row "e_0129_0211"].
Proof. vm_compute. reflexivity. Qed.

Example list_single_day :
  PayPeriods_list 1 1 "2026-06-15" = Ok [mk_row "e_0615_0615"].
Proof. vm_compute. reflexivity. Qed.

Example list_leap_day :
  PayPeriods_list 14 2 "2024-02-20" =
    Ok [mk_row "e_0220_0304"; mk_row "e_0305_0318"].
Proof. vm_compute. reflexivity. Qed.

Example list_backwards :
  PayPeriods_list (-7) 2 "2026-01-15" =
    Ok [mk_row "e_0115_0107"; mk_row "e_0108_1231"].
Proof. vm_compute. reflexivity. Qed.

Example datetime_string_rejects_slashes :
  datetime_string "2026/01/01" = Raise ArgumentTypeError /\
  datetime_string "26-01-01" = Raise ArgumentTypeError.
Proof. split; reflexivity. Qed.

(** ** Contiguity *)

(** C1.  On a valid input (at least one day per period, a count that is not
    negative, a start date that parses), the periods behind the rows [list]
    returns are contiguous and do not overlap: period [i] runs from
    [startDate + i * daysPerPeriod days] through that start
    [+ (daysPerPeriod - 1) days], and period [i + 1] starts exactly one day
    after period [i] ends, hence strictly after it. *)
Theorem list_periods_contiguous d n s startDate rows :
  1 <= d -> 0 <= n -> fromisoformat s = Ok startDate ->
  PayPeriods_list d n s = Ok rows ->
  exists ps,
    periods d n s = Ok ps /\ rows = map row_of ps /\
    spans d startDate ps /\ contiguous ps.
Proof.
  intros Hd Hn Hs Hl. rewrite list_periods in Hl.
  destruct (periods d n s) as [ps | e] eqn:Hp; [|discriminate].
  injection Hl as <-. exists ps. split_and!; [done..| |].
  - destruct (periods_Ok d n s startDate ps Hs Hp) as [-> Hr].
    apply period_at_spans; [done | by eapply fromisoformat_valid | done].
  - destruct (periods_Ok d n s startDate ps Hs Hp) as [-> Hr].
    by apply period_at_contiguous.
Qed.

Lemma list_periods_contiguous_witness :
  1 <= 7 /\ 0 <= 2 /\
  fromisoformat "2026-12-28" = Ok (mk_datetime 2026 12 28) /\
  exists ps,
    periods 7 2 "2026-12-28" = Ok ps /\
    [mk_row "e_1228_0103"; mk_row "e_0104_0110"] = map row_of ps /\
    spans 7 (mk_datetime 2026 12 28) ps /\ contiguous ps.
Proof.
  split; [lia|]. split; [lia|]. split; [reflexivity|].
  apply (list_periods_contiguous 7 2 "2026-12-28" (mk_datetime 2026 12 28));
    [lia | lia | reflexivity | vm_compute; reflexivity].
Defined.

(** ** How many rows, and in which order *)

(** When period [k - 1] ends on the calendar and the periods run forwards
    from a date that exists, all of [k] periods are on the calendar. *)
Lemma forwards_on_calendar d n w :
  1 <= d -> valid_datetime w ->
  toordinal w + n * d - 1 <= MAXORDINAL ->
  forall j, (j < range_len n)%nat ->
    in_range (start_ordinal (toordinal w) d j) = true /\
    in_range (end_ordinal (toordinal w) d j) = true.
Proof.
  intros Hd Hv Hlast j Hj. pose proof (toordinal_range w Hv) as Ho.
  unfold range_len in Hj. rewrite !in_range_spec.
  unfold end_ordinal, start_ordinal.
  assert (Hjn : Z.of_nat j + 1 <= n) by lia.
  assert (Hmul : (Z.of_nat j + 1) * d <= n * d)
    by (apply Z.mul_le_mono_nonneg_r; lia).
  assert (0 <= Z.of_nat j * d) by (apply Z.mul_nonneg_nonneg; lia).
  lia.
Qed.

(** C2, as the code has it.  On a valid input whose last period ends no
    later than 9999-12-31, the last day of the calendar, [list] returns
    exactly [periodCount] rows, one per period, in ascending order of the
    periods' start dates. *)
Theorem list_count_and_order d n s startDate :
  1 <= d -> 0 <= n -> fromisoformat s = Ok startDate ->
  toordinal startDate + n * d - 1 <= MAXORDINAL ->
  exists ps,
    periods d n s = Ok ps /\
    PayPeriods_list d n s = Ok (map row_of ps) /\
    Z.of_nat (length (map row_of ps)) = n /\
    ascending ps.
Proof.
  intros Hd Hn Hs Hlast.
  pose proof (fromisoformat_valid s startDate Hs) as Hv.
  pose proof (forwards_on_calendar d n startDate Hd Hv Hlast) as Hr.
  pose proof (periods_in_range d n s startDate Hs Hr) as Hp.
  eexists. split; [exact Hp|]. split_and!.
  - by rewrite list_periods, Hp.
  - rewrite !length_map, length_seq. unfold range_len. lia.
  - by apply period_at_ascending.
Qed.

Lemma list_count_and_order_witness :
  1 <= 14 /\ 0 <= 3 /\
  fromisoformat "2026-01-01" = Ok (mk_datetime 2026 1 1) /\
  toordinal (mk_datetime 2026 1 1) + 3 * 14 - 1 <= MAXORDINAL /\
  exists ps,
    periods 14 3 "2026-01-01" = Ok ps /\
    PayPeriods_list 14 3 "2026-01-01" = Ok (map row_of ps) /\
    Z.of_nat (length (map row_of ps)) = 3 /\
    ascending ps.
Proof.
  split; [lia|]. split; [lia|]. split; [reflexivity|].
  split; [vm_compute; discriminate|].
  apply (list_count_and_order 14 3 "2026-01-01" (mk_datetime 2026 1 1));
    [lia | lia | reflexivity | vm_compute; discriminate].
Defined.

(** A valid input on which [list] returns no rows at all: one period of
    3000000 days from 2999-12-31, a start date the command line accepts,
    would end after 9999-12-31, and [datetime] arithmetic overflows. *)
Lemma list_overflows_past_9999 :
  1 <= 3000000 /\ 0 <= 1 /\
  datetime_string "2999-12-31" = Ok "2999-12-31" /\
  fromisoformat "2999-12-31" = Ok (mk_datetime 2999 12 31) /\
  PayPeriods_list 3000000 1 "2999-12-31" = Raise OverflowError.
Proof. split_and!; [lia | lia | reflexivity | reflexivity | by vm_compute]. Qed.

(** The other side of C2 in general: a valid input with at least one period
    whose last period would end after 9999-12-31 makes [list] raise
    [OverflowError]. *)
Lemma list_overflow d n s startDate :
  1 <= d -> 1 <= n -> fromisoformat s = Ok startDate ->
  MAXORDINAL < toordinal startDate + n * d - 1 ->
  PayPeriods_list d n s = Raise OverflowError.
Proof.
  intros Hd Hn Hs Hlast. rewrite list_periods.
  destruct (periods d n s) as [ps | e] eqn:Hp.
  - exfalso. destruct (periods_Ok d n s startDate ps Hs Hp) as [_ Hr].
    destruct (Hr (Z.to_nat (n - 1))) as [_ Hen]; [unfold range_len; lia|].
    apply in_range_spec in Hen. unfold end_ordinal, start_ordinal in Hen.
    rewrite Z2Nat.id in Hen by lia. lia.
  - rewrite (periods_parsed d n s startDate Hs) in Hp.
    destruct (_ && _); [discriminate|]. by injection Hp as <-.
Qed.

(** ** The iteration and the closed form *)

(** C3.  On a valid input, the periods the code reaches by adding
    [daysPerPeriod] days over and over are the periods of the closed form,
    as computations: [list] works with exactly [spec_periods], rows and
    overflow alike.  Whenever it returns there are [periodCount] periods,
    and period [i] starts at [startDate + i * daysPerPeriod days] and ends
    [daysPerPeriod - 1] days after its start. *)
Theorem list_refines_closed_form d n s startDate :
  1 <= d -> 0 <= n -> fromisoformat s = Ok startDate ->
  periods d n s = spec_periods d n startDate /\
  PayPeriods_list d n s = map row_of <$> spec_periods d n startDate /\
  forall ps, periods d n s = Ok ps ->
    Z.of_nat (length ps) = n /\ spans d startDate ps.
Proof.
  intros Hd Hn Hs.
  pose proof (periods_spec_periods d n s startDate Hs) as Heq.
  split; [exact Heq|]. split; [by rewrite list_periods, Heq|].
  intros ps Hp. destruct (periods_Ok d n s startDate ps Hs Hp) as [-> Hr].
  split.
  - rewrite length_map, length_seq. unfold range_len. lia.
  - apply period_at_spans; [done | by eapply fromisoformat_valid | done].
Qed.

Lemma list_refines_closed_form_witness :
  1 <= 14 /\ 0 <= 3 /\
  fromisoformat "2024-02-20" = Ok (mk_datetime 2024 2 20) /\
  periods 14 3 "2024-02-20" = spec_periods 14 3 (mk_datetime 2024 2 20) /\
  PayPeriods_list 14 3 "2024-02-20" =
    map row_of <$> spec_periods 14 3 (mk_datetime 2024 2 20) /\
  forall ps, periods 14 3 "2024-02-20" = Ok ps ->
    Z.of_nat (length ps) = 3 /\ spans 14 (mk_datetime 2024 2 20) ps.
Proof.
  split; [lia|]. split; [lia|]. split; [reflexivity|].
  apply (list_refines_closed_form 14 3 "2024-02-20" (mk_datetime 2024 2 20));
    [lia | lia | reflexivity].
Defined.

(** ** Arguments the specification rules out *)

(** C4 fails on the code: with zero days per period [list] returns rows,
    each period ending the day before it starts. *)
Lemma zero_days_not_rejected :
  0 <= 0 /\
  PayPeriods_list 0 2 "2026-01-01" =
    Ok [mk_row "e_0101_1231"; mk_row "e_0101_1231"] /\
  ~ exists e, PayPeriods_list 0 2 "2026-01-01" = Raise e.
Proof.
  split; [lia|].
  assert (H : PayPeriods_list 0 2 "2026-01-01" =
              Ok [mk_row "e_0101_1231"; mk_row "e_0101_1231"])
    by (vm_compute; reflexivity).
  split; [exact H|]. intros [e He]. rewrite H in He. discriminate.
Qed.

(** When the periods run backwards or stand still, the earliest date is the
    end of the last period. *)
Lemma backwards_on_calendar d n w :
  d <= 0 -> valid_datetime w ->
  1 <= toordinal w + n * d - 1 ->
  forall j, (j < range_len n)%nat ->
    in_range (start_ordinal (toordinal w) d j) = true /\
    in_range (end_ordinal (toordinal w) d j) = true.
Proof.
  intros Hd Hv Hlast j Hj. pose proof (toordinal_range w Hv) as Ho.
  unfold range_len in Hj. rewrite !in_range_spec.
  unfold end_ordinal, start_ordinal.
  assert (Hjn : Z.of_nat j + 1 <= n) by lia.
  assert (Hmul : n * d <= (Z.of_nat j + 1) * d)
    by (apply Z.mul_le_mono_nonpos_r; lia).
  assert (Z.of_nat j * d <= 0) by (apply Z.mul_nonneg_nonpos; lia).
  lia.
Qed.

(** C4, as the code has it.  A number of days per period that is zero or
    negative is not refused.  With a start date that parses and a count that
    is not negative, and as long as the last period does not end before
    0001-01-01, [list] returns [periodCount] rows for the periods of the
    closed form, which then end before they start. *)
Theorem list_nonpositive_days d n s startDate :
  d <= 0 -> 0 <= n -> fromisoformat s = Ok startDate ->
  (0 < n -> 1 <= toordinal startDate + n * d - 1) ->
  exists ps,
    spec_periods d n startDate = Ok ps /\
    PayPeriods_list d n s = Ok (map row_of ps) /\
    Z.of_nat (length (map row_of ps)) = n /\
    spans d startDate ps.
Proof.
  intros Hd Hn Hs Hlast.
  pose proof (fromisoformat_valid s startDate Hs) as Hv.
  assert (Hr : forall j, (j < range_len n)%nat ->
    in_range (start_ordinal (toordinal startDate) d j) = true /\
    in_range (end_ordinal (toordinal startDate) d j) = true).
  { intros j Hj. apply (backwards_on_calendar d n startDate); try done.
    apply Hlast. unfold range_len in Hj. lia. }
  pose proof (periods_in_range d n s startDate Hs Hr) as Hp.
  eexists. split_and!.
  - by rewrite <- (periods_spec_periods d n s startDate Hs).
  - by rewrite list_periods, Hp.
  - rewrite !length_map, length_seq. unfold range_len. lia.
  - by apply period_at_spans.
Qed.

Lemma list_nonpositive_days_witness :
  -7 <= 0 /\ 0 <= 2 /\
  fromisoformat "2026-01-15" = Ok (mk_datetime 2026 1 15) /\
  (0 < 2 -> 1 <= toordinal (mk_datetime 2026 1 15) + 2 * -7 - 1) /\
  exists ps,
    spec_periods (-7) 2 (mk_datetime 2026 1 15) = Ok ps /\
    PayPeriods_list (-7) 2 "2026-01-15" = Ok (map row_of ps) /\
    Z.of_nat (length (map row_of ps)) = 2 /\
    spans (-7) (mk_datetime 2026 1 15) ps.
Proof.
  split; [lia|]. split; [lia|]. split; [reflexivity|].
  split; [intros _; vm_compute; discriminate|].
  apply (list_nonpositive_days (-7) 2 "2026-01-15" (mk_datetime 2026 1 15));
    [lia | lia | reflexivity | intros _; vm_compute; discriminate].
Defined.

(** C5 fails on the code: a negative count makes [range] empty, and [list]
    returns the empty response instead of raising. *)
Lemma negative_count_not_rejected :
  -3 < 0 /\
  PayPeriods_list 14 (-3) "2026-01-01" = Ok [] /\
  ~ exists e, PayPeriods_list 14 (-3) "2026-01-01" = Raise e.
Proof.
  split; [lia|]. split; [reflexivity|]. intros [e He]. discriminate He.
Qed.

(** C5, as the code has it.  For a negative count [list] raises nothing and
    returns the empty response, whatever the other arguments. *)
Theorem list_negative_count d n s : n < 0 -> PayPeriods_list d n s = Ok [].
Proof.
  intros Hn. rewrite list_periods, periods_no_iteration by lia. reflexivity.
Qed.

Lemma list_negative_count_witness :
  -3 < 0 /\ PayPeriods_list 14 (-3) "2026-01-01" = Ok [].
Proof.
  split; [lia|]. apply (list_negative_count 14 (-3) "2026-01-01"). lia.
Defined.




(** ** No period to list *)

(** C7.  With a count of zero [list] returns the empty response and raises
    nothing, whatever the days per period and the start date. *)
Theorem list_zero_count d s : PayPeriods_list d 0 s = Ok [].
Proof. reflexivity. Qed.

(** C10.  With a count that is zero or negative the first loop never runs,
    so [start_datetime] is never parsed: [list] returns the empty response
    for every string, also one that is no date at all. *)
Theorem list_never_parses d n s :
  n <= 0 ->
  collect_datetimes (range_len n) d s None [] = Ok [] /\
  PayPeriods_list d n s = Ok [].
Proof.
  intros Hn. unfold PayPeriods_list, range_len.
  by replace (Z.to_nat n) with 0%nat by lia.
Qed.

Lemma list_never_parses_witness :
  -2 <= 0 /\
  fromisoformat "next tuesday" = Raise ValueError /\
  collect_datetimes (range_len (-2)) 14 "next tuesday" None [] = Ok [] /\
  PayPeriods_list 14 (-2) "next tuesday" = Ok [].
Proof.
  split; [lia|]. split; [reflexivity|].
  apply (list_never_parses 14 (-2) "next tuesday"). lia.
Defined.

(** ** Labels *)

(** C8.  Seven days per period, two periods from 2026-12-28: the first
    label runs from December into January, and no year appears. *)
Theorem list_across_new_year :
  PayPeriods_list 7 2 "2026-12-28" =
    Ok [mk_row "e_1228_0103"; mk_row "e_0104_0110"].
Proof. vm_compute. reflexivity. Qed.

(** C9.  Every row [list] returns carries a label of the form
    [e_\d{4}_\d{4}]: ["e_"], the month and the day of the period's start as
    two digits each, ["_"], and the same for the period's end. *)
Theorem list_labels_match d n s rows :
  PayPeriods_list d n s = Ok rows ->
  exists ps,
    periods d n s = Ok ps /\
    forall (i : nat) r, rows !! i = Some r ->
      exists p, ps !! i = Some p /\
        pay_period r =
          "e_" +:+ (pad2 (month p.1) +:+ pad2 (day p.1)) +:+
          "_" +:+ (pad2 (month p.2) +:+ pad2 (day p.2)) /\
        1 <= month p.1 <= 12 /\ 1 <= day p.1 <= 31 /\
        1 <= month p.2 <= 12 /\ 1 <= day p.2 <= 31 /\
        label_matches (pay_period r) = true.
Proof.
  intros Hl. rewrite list_periods in Hl.
  destruct (periods d n s) as [ps | e] eqn:Hp; [|discriminate].
  injection Hl as <-. exists ps. split; [done|].
  intros i r (p & -> & Hi)%list_lookup_fmap_Some. exists p. split; [done|].
  split; [reflexivity|].
  assert (Hv : valid_datetime p.1 /\ valid_datetime p.2).
  { destruct (Z_le_gt_dec n 0) as [Hn | Hn].
    - rewrite (periods_no_iteration d n s Hn) in Hp.
      injection Hp as <-. by rewrite lookup_nil in Hi.
    - destruct (fromisoformat s) as [w | err] eqn:Hs.
      + destruct (periods_Ok d n s w ps Hs Hp) as [-> Hr].
        apply lookup_period_at in Hi as [Hi ->].
        destruct (Hr i Hi) as [Hst Hen].
        by destruct (period_at_valid _ d i Hst Hen) as (? & ? & _).
      + rewrite (periods_unparsed d n s err) in Hp by (done || lia).
        discriminate. }
  destruct Hv as [Hv1 Hv2].
  pose proof (label_matches_item_of p.1 p.2 Hv1 Hv2) as Hm.
  apply valid_datetime_spec in Hv1 as (_ & Hm1 & Hd1).
  apply valid_datetime_spec in Hv2 as (_ & Hm2 & Hd2).
  pose proof (days_in_month_pos (year p.1) _ Hm1).
  pose proof (days_in_month_pos (year p.2) _ Hm2).
  split_and!; try lia. exact Hm.
Qed.

Lemma list_labels_match_witness :
  PayPeriods_list 7 2 "2026-12-28" =
    Ok [mk_row "e_1228_0103"; mk_row "e_0104_0110"] /\
  exists ps,
    periods 7 2 "2026-12-28" = Ok ps /\
    forall (i : nat) r,
      [mk_row "e_1228_0103"; mk_row "e_0104_0110"] !! i = Some r ->
      exists p, ps !! i = Some p /\
        pay_period r =
          "e_" +:+ (pad2 (month p.1) +:+ pad2 (day p.1)) +:+
          "_" +:+ (pad2 (month p.2) +:+ pad2 (day p.2)) /\
        1 <= month p.1 <= 12 /\ 1 <= day p.1 <= 31 /\
        1 <= month p.2 <= 12 /\ 1 <= day p.2 <= 31 /\
        label_matches (pay_period r) = true.
Proof.
  split; [vm_compute; reflexivity|].
  apply (list_labels_match 7 2 "2026-12-28"). vm_compute. reflexivity.
Defined.

(** * The command line *)

(** ** Digits *)

Lemma digit_of_Some (c : ascii) (k : Z) :
  digit_of c = Some k -> 0 <= k <= 9 /\ c = digit_char k.
Proof.
  unfold digit_of, digit_char.
  destruct (_ && _) eqn:Hc; [|discriminate]. intros [= <-].
  apply andb_prop in Hc as [H1%Z.leb_le H2%Z.leb_le]. split; [lia|].
  replace (48 + (Z.of_nat (nat_of_ascii c) - 48))
    with (Z.of_nat (nat_of_ascii c)) by lia.
  by rewrite Nat2Z.id, ascii_nat_embedding.
Qed.

Lemma digit_of_digit_char (k : Z) :
  0 <= k <= 9 -> digit_of (digit_char k) = Some k.
Proof.
  intros Hk.
  assert (Hcases : k = 0 \/ k = 1 \/ k = 2 \/ k = 3 \/ k = 4 \/ k = 5 \/
                   k = 6 \/ k = 7 \/ k = 8 \/ k = 9) by lia.
  repeat (destruct Hcases as [-> | Hcases]; [reflexivity|]).
  by subst.
Qed.

Lemma is_digit_Some (c : ascii) :
  is_digit c = true -> exists k, digit_of c = Some k /\ 0 <= k <= 9.
Proof.
  unfold is_digit. destruct (digit_of c) as [k|] eqn:Hk; [|discriminate].
  intros _. exists k. split; [done|]. by apply (digit_of_Some c k).
Qed.

(** Two digits spell the number they were printed from. *)
Lemma pad2_inj (m m' : Z) :
  0 <= m <= 99 -> 0 <= m' <= 99 -> pad2 m = pad2 m' -> m = m'.
Proof.
  intros Hm Hm'. unfold pad2. intros [= Ht Hu].
  apply (f_equal digit_of) in Ht, Hu.
  rewrite !digit_of_digit_char in Ht, Hu by (Z.div_mod_to_equations; lia).
  injection Ht as Ht. injection Hu as Hu.
  Z.div_mod_to_equations; lia.
Qed.

(** ** The pattern of [datetime_string] *)

(** What the pattern lets through reads as [YYYY-MM-DD] with a year from
    2000 to 2999, a final line feed apart. *)
Lemma datetime_regex_match_shape (value : string) :
  datetime_regex_match value = true ->
  exists body y m d,
    (value = body \/ value = body +:+ newline) /\
    String.length body = 10%nat /\
    parse_isoformat_date body = Some (y, m, d) /\
    2000 <= y <= 2999 /\ 0 <= m <= 99 /\ 0 <= d <= 99.
Proof.
  destruct value as [|c1 [|y2 [|y3 [|y4 [|s1 [|m1 [|m2 [|s2 [|d1 [|d2 rest
    ]]]]]]]]]]; try discriminate.
  cbn [datetime_regex_match]. rewrite !andb_true_iff.
  intros ((((((((((Hc1 & Hy2) & Hy3) & Hy4) & Hs1) & Hm1) & Hm2) & Hs2)
             & Hd1) & Hd2) & Hrest).
  apply Ascii.eqb_eq in Hc1, Hs1, Hs2. subst c1 s1 s2.
  destruct (is_digit_Some _ Hy2) as (k2 & E2 & B2).
  destruct (is_digit_Some _ Hy3) as (k3 & E3 & B3).
  destruct (is_digit_Some _ Hy4) as (k4 & E4 & B4).
  destruct (is_digit_Some _ Hm1) as (k5 & E5 & B5).
  destruct (is_digit_Some _ Hm2) as (k6 & E6 & B6).
  destruct (is_digit_Some _ Hd1) as (k7 & E7 & B7).
  destruct (is_digit_Some _ Hd2) as (k8 & E8 & B8).
  exists (String "2" (String y2 (String y3 (String y4 (String "-"
            (String m1 (String m2 (String "-"
              (String d1 (String d2 EmptyString)))))))))),
    (2 * 1000 + k2 * 100 + k3 * 10 + k4), (k5 * 10 + k6), (k7 * 10 + k8).
  split_and!; [| reflexivity | | lia..].
  - apply orb_prop in Hrest as [Hr%String.eqb_eq | Hr%String.eqb_eq];
      subst rest; [by left | by right].
  - cbn [parse_isoformat_date]. change (digit_of "2") with (Some 2).
    rewrite E2, E3, E4, E5, E6, E7, E8. reflexivity.
Qed.

(** And everything that reads as [YYYY-MM-DD] with such a year passes, with
    or without a final line feed. *)
Lemma parse_isoformat_date_regex (body : string) (y m d : Z) :
  parse_isoformat_date body = Some (y, m, d) -> 2000 <= y <= 2999 ->
  datetime_regex_match body = true /\
  datetime_regex_match (body +:+ newline) = true.
Proof.
  destruct body as [|c1 [|y2 [|y3 [|y4 [|s1 [|m1 [|m2 [|s2 [|d1 [|d2 [|? ?]
    ]]]]]]]]]]; try discriminate.
  cbn [parse_isoformat_date].
  destruct (digit_of c1) as [k1|] eqn:E1; [|discriminate].
  destruct (digit_of y2) as [k2|] eqn:E2; [|discriminate].
  destruct (digit_of y3) as [k3|] eqn:E3; [|discriminate].
  destruct (digit_of y4) as [k4|] eqn:E4; [|discriminate].
  destruct (digit_of m1) as [k5|] eqn:E5; [|discriminate].
  destruct (digit_of m2) as [k6|] eqn:E6; [|discriminate].
  destruct (digit_of d1) as [k7|] eqn:E7; [|discriminate].
  destruct (digit_of d2) as [k8|] eqn:E8; [|discriminate].
  cbn [mbind option_bind].
  destruct (Ascii.eqb s1 "-" && Ascii.eqb s2 "-") eqn:Hsep; [|discriminate].
  intros [= <- <- <-] Hy.
  apply andb_prop in Hsep as [Hs1 Hs2].
  destruct (digit_of_Some _ _ E1) as [B1 Hc1].
  destruct (digit_of_Some _ _ E2) as [B2 _].
  destruct (digit_of_Some _ _ E3) as [B3 _].
  destruct (digit_of_Some _ _ E4) as [B4 _].
  assert (k1 = 2) as -> by lia. subst c1.
  cbv [String.append newline]. cbn [datetime_regex_match]. unfold is_digit.
  rewrite E2, E3, E4, E5, E6, E7, E8, Hs1, Hs2. split; reflexivity.
Qed.

Lemma string_length_app (a b : string) :
  String.length (a +:+ b) = (String.length a + String.length b)%nat.
Proof.
  induction a as [|c a IH]; [reflexivity|].
  cbv [String.append] in *. cbn. by rewrite IH.
Qed.

Lemma parse_isoformat_date_length (dtstr : string) (y m d : Z) :
  parse_isoformat_date dtstr = Some (y, m, d) -> String.length dtstr = 10%nat.
Proof.
  destruct dtstr as [|c1 [|y2 [|y3 [|y4 [|s1 [|m1 [|m2 [|s2 [|d1 [|d2 [|? ?]
    ]]]]]]]]]]; try discriminate.
  reflexivity.
Qed.

(** A start date the pattern lets through and the parser reads is a date of
    the years 2000 to 2999. *)
Lemma accepted_parsed_year (value : string) (dt : datetime) :
  datetime_regex_match value = true -> fromisoformat value = Ok dt ->
  2000 <= year dt <= 2999.
Proof.
  intros (body & y & m & d & Hv & Hlen & Hbody & Hy & _)%datetime_regex_match_shape.
  unfold fromisoformat.
  destruct (parse_isoformat_date value) as [[[y' m'] d'] |] eqn:Hp;
    [|discriminate].
  destruct (check_date_fields y' m' d'); [|discriminate]. intros [= <-]. cbn.
  destruct Hv as [-> | ->].
  - rewrite Hbody in Hp. by injection Hp as <- _ _.
  - apply parse_isoformat_date_length in Hp.
    rewrite string_length_app, Hlen in Hp. discriminate.
Qed.

Lemma datetime_string_Ok (value start : string) :
  datetime_string value = Ok start <->
  start = value /\ datetime_regex_match value = true.
Proof.
  unfold datetime_string. destruct (datetime_regex_match value); split.
  - by intros [= <-].
  - by intros [-> _].
  - discriminate.
  - by intros [_ ?].
Qed.

(** X1.  [datetime_string] returns its argument, unchanged, exactly when
    the argument reads as [YYYY-MM-DD] with a year from 2000 to 2999,
    possibly followed by one line feed; the month and the day are any two
    digits each.  Every other argument raises [ArgumentTypeError]. *)
Theorem datetime_string_accepts (value : string) :
  (datetime_string value = Ok value <->
   exists body y m d,
     (value = body \/ value = body +:+ newline) /\
     parse_isoformat_date body = Some (y, m, d) /\ 2000 <= y <= 2999) /\
  (datetime_string value = Ok value \/
   datetime_string value = Raise ArgumentTypeError).
Proof.
  split; [split|].
  - intros [_ Hm]%datetime_string_Ok.
    destruct (datetime_regex_match_shape value Hm)
      as (body & y & m & d & Hv & _ & Hp & Hy & _).
    by exists body, y, m, d.
  - intros (body & y & m & d & Hv & Hp & Hy).
    destruct (parse_isoformat_date_regex body y m d Hp Hy) as [Hb Hn].
    apply datetime_string_Ok. split; [done|]. by destruct Hv as [-> | ->].
  - unfold datetime_string. destruct (datetime_regex_match value); auto.
Qed.



(** ** The [list] sub-command *)

Lemma toordinal_before_year (dt : datetime) (y : Z) :
  valid_datetime dt -> year dt < y -> toordinal dt <= days_before_year y.
Proof.
  intros (_ & Hm & Hd)%valid_datetime_spec Hy. unfold toordinal, ymd2ord.
  pose proof (day_of_year_bounds _ _ _ Hm Hd).
  pose proof (days_before_year_succ (year dt)).
  pose proof (days_before_year_mono (year dt + 1) y). lia.
Qed.

(** From the command line the periods start before the year 3000, which
    leaves 2556698 days of calendar to list. *)
Lemma command_line_periods d n value startDate :
  datetime_string value = Ok value -> fromisoformat value = Ok startDate ->
  1 <= d -> 0 <= n -> n * d <= 2556698 ->
  periods d n value =
    Ok (map (period_at (toordinal startDate) d) (seq 0 (range_len n))) /\
  forall j, (j < range_len n)%nat ->
    in_range (start_ordinal (toordinal startDate) d j) = true /\
    in_range (end_ordinal (toordinal startDate) d j) = true.
Proof.
  intros [_ Hm]%datetime_string_Ok Hs Hd Hn Hnd.
  pose proof (fromisoformat_valid value startDate Hs) as Hv.
  pose proof (accepted_parsed_year value startDate Hm Hs) as Hy.
  pose proof (toordinal_before_year startDate 3000 Hv) as Ho.
  change (days_before_year 3000) with 1095362 in Ho.
  assert (Hr : forall j, (j < range_len n)%nat ->
    in_range (start_ordinal (toordinal startDate) d j) = true /\
    in_range (end_ordinal (toordinal startDate) d j) = true).
  { apply forwards_on_calendar; [done..|]. unfold MAXORDINAL. lia. }
  split; [by apply periods_in_range | exact Hr].
Qed.

(** X3.  Through the command line, [list] cannot overflow on any sensible
    request: when the start date passes [datetime_string] and parses, the
    days per period are at least one, the count is not negative, and the
    periods together span at most 2556698 days (7000 years), the command
    returns exactly as many rows as periods were asked for, for periods
    that are contiguous, in ascending order. *)
Theorem main_list_command_returns days number value startDate :
  let d := default DEFAULT_DAYS_PER_PAY_PERIOD days in
  let n := default DEFAULT_NUMBER_OF_PAY_PERIODS number in
  datetime_string value = Ok value -> fromisoformat value = Ok startDate ->
  1 <= d -> 0 <= n -> n * d <= 2556698 ->
  exists ps,
    main_list_command days number value = Ok (map row_of ps) /\
    Z.of_nat (length (map row_of ps)) = n /\
    spans d startDate ps /\ contiguous ps /\ ascending ps.
Proof.
  intros d n Hacc Hs Hd Hn Hnd.
  destruct (command_line_periods d n value startDate Hacc Hs Hd Hn Hnd)
    as [Hp Hr].
  eexists. split_and!.
  - unfold main_list_command. rewrite Hacc. cbn [mbind result_bind].
    fold d n. by rewrite list_periods, Hp.
  - rewrite !length_map, length_seq. unfold range_len. lia.
  - apply period_at_spans; [done | by eapply fromisoformat_valid | done].
  - by apply period_at_contiguous.
  - by apply period_at_ascending.
Qed.

Lemma main_list_command_returns_witness :
  datetime_string "2026-01-01" = Ok "2026-01-01" /\
  fromisoformat "2026-01-01" = Ok (mk_datetime 2026 1 1) /\
  1 <= 7 /\ 0 <= 52 /\ 52 * 7 <= 2556698 /\
  exists ps,
    main_list_command (Some 7) (Some 52) "2026-01-01" = Ok (map row_of ps) /\
    Z.of_nat (length (map row_of ps)) = 52 /\
    spans 7 (mk_datetime 2026 1 1) ps /\ contiguous ps /\ ascending ps.
Proof.
  split; [reflexivity|]. split; [reflexivity|].
  split; [lia|]. split; [lia|]. split; [lia|].
  apply (main_list_command_returns (Some 7) (Some 52) "2026-01-01"
           (mk_datetime 2026 1 1)); [reflexivity | reflexivity | cbn; lia..].
Defined.

(** X4.  With the default options, fourteen days and twenty-six periods,
    every start date that passes [datetime_string] and parses gives exactly
    twenty-six rows: the fortnights of the 364 days from the start date
    on. *)
Theorem main_list_command_defaults value startDate :
  datetime_string value = Ok value -> fromisoformat value = Ok startDate ->
  exists ps,
    main_list_command None None value = Ok (map row_of ps) /\
    length (map row_of ps) = 26%nat /\
    spans 14 startDate ps /\ contiguous ps /\
    (forall p, last ps = Some p -> add_days startDate 363 = Ok p.2).
Proof.
  intros Hacc Hs.
  destruct (command_line_periods 14 26 value startDate Hacc Hs
              ltac:(lia) ltac:(lia) ltac:(lia)) as [Hp Hr].
  pose proof (fromisoformat_valid value startDate Hs) as Hv.
  eexists. split_and!.
  - unfold main_list_command. rewrite Hacc. cbn [mbind result_bind default].
    unfold DEFAULT_DAYS_PER_PAY_PERIOD, DEFAULT_NUMBER_OF_PAY_PERIODS.
    by rewrite list_periods, Hp.
  - reflexivity.
  - by apply period_at_spans.
  - by apply period_at_contiguous.
  - intros p [= <-]. cbn [period_at snd].
    destruct (Hr 25%nat) as [_ Hen]; [unfold range_len; lia|].
    rewrite (add_days_valid _ _ Hv).
    replace (toordinal startDate + 363)
      with (end_ordinal (toordinal startDate) 14 25)
      by (unfold end_ordinal, start_ordinal; lia).
    by rewrite Hen.
Qed.

Lemma main_list_command_defaults_witness :
  datetime_string "2026-01-01" = Ok "2026-01-01" /\
  fromisoformat "2026-01-01" = Ok (mk_datetime 2026 1 1) /\
  exists ps,
    main_list_command None None "2026-01-01" = Ok (map row_of ps) /\
    length (map row_of ps) = 26%nat /\
    spans 14 (mk_datetime 2026 1 1) ps /\ contiguous ps /\
    (forall p, last ps = Some p ->
       add_days (mk_datetime 2026 1 1) 363 = Ok p.2).
Proof.
  split; [reflexivity|]. split; [reflexivity|].
  apply (main_list_command_defaults "2026-01-01" (mk_datetime 2026 1 1));
    reflexivity.
Defined.

(** The rows of the usage notes: the first four of the default run from
    2026-01-01. *)
Example main_list_command_usage :
  take 4 <$> main_list_command None None "2026-01-01" =
    Ok [mk_row "e_0101_0114"; mk_row "e_0115_0128";
        mk_row "e_0129_0211"; mk_row "e_0212_0225"].
Proof. vm_compute. reflexivity. Qed.

(** * More on [list] *)

(** A run that returns has listed nothing, or has parsed the start date and
    kept every period on the calendar. *)
Lemma periods_Ok_cases d n s ps :
  periods d n s = Ok ps ->
  (n <= 0 /\ ps = []) \/
  (1 <= n /\ exists w,
     fromisoformat s = Ok w /\
     ps = map (period_at (toordinal w) d) (seq 0 (range_len n)) /\
     forall j, (j < range_len n)%nat ->
       in_range (start_ordinal (toordinal w) d j) = true /\
       in_range (end_ordinal (toordinal w) d j) = true).
Proof.
  intros Hp. destruct (Z_le_gt_dec n 0) as [Hn | Hn].
  - left. rewrite (periods_no_iteration d n s Hn) in Hp. by injection Hp as <-.
  - right. split; [lia|]. destruct (fromisoformat s) as [w | err] eqn:Hs.
    + exists w. split; [done|]. by apply (periods_Ok d n s).
    + rewrite (periods_unparsed d n s err) in Hp by (done || lia).
      discriminate.
Qed.





(** X6.  Asking for fewer periods gives a prefix: whenever [list] returns
    for a count, it returns for every smaller count too, and with the
    first rows of the same response. *)
Theorem list_prefix d n n' s rows :
  n <= n' -> PayPeriods_list d n' s = Ok rows ->
  PayPeriods_list d n s = Ok (take (Z.to_nat n) rows).
Proof.
  intros Hle. rewrite !list_periods. intros Hl.
  destruct (periods d n' s) as [ps | e] eqn:Hp; [|discriminate].
  injection Hl as <-.
  destruct (periods_Ok_cases d n' s ps Hp)
    as [[Hn' ->] | (Hn' & w & Hs & -> & Hr)].
  - rewrite periods_no_iteration by lia.
    by replace (Z.to_nat n) with 0%nat by lia.
  - rewrite (periods_in_range d n s w Hs).
    + cbn [fmap result_fmap]. f_equal.
      change (map row_of ?l) with (row_of <$> l).
      change (map (period_at ?o d) ?l) with (period_at o d <$> l).
      rewrite <- !fmap_take, take_seq. do 3 f_equal.
      unfold range_len. lia.
    + intros j Hj. apply Hr. unfold range_len in *. lia.
Qed.

Lemma list_prefix_witness :
  1 <= 3 /\
  PayPeriods_list 14 3 "2026-01-01" =
    Ok [mk_row "e_0101_0114"; mk_row "e_0115_0128"; mk_row "e_0129_0211"] /\
  PayPeriods_list 14 1 "2026-01-01" =
    Ok (take (Z.to_nat 1)
          [mk_row "e_0101_0114"; mk_row "e_0115_0128"; mk_row "e_0129_0211"]).
Proof.
  split; [lia|]. split; [vm_compute; reflexivity|].
  apply (list_prefix 14 1 3 "2026-01-01"); [lia | vm_compute; reflexivity].
Defined.

(** The dates behind a response exist. *)
Lemma periods_valid d n s ps (i : nat) p :
  periods d n s = Ok ps -> ps !! i = Some p ->
  valid_datetime p.1 /\ valid_datetime p.2.
Proof.
  intros Hp Hi.
  destruct (periods_Ok_cases d n s ps Hp)
    as [[_ ->] | (_ & w & _ & -> & Hr)]; [by rewrite lookup_nil in Hi|].
  apply lookup_period_at in Hi as [Hi ->]. destruct (Hr i Hi) as [Hst Hen].
  by destruct (period_at_valid _ d i Hst Hen) as (? & ? & _).
Qed.

(** X7.  A label tells the month and the day of both ends of its period:
    for dates that exist, two periods with the same label start on the same
    month and day and end on the same month and day.  Only the year is
    lost. *)
Theorem item_of_inj (beg_dt end_dt beg_dt' end_dt' : datetime) :
  valid_datetime beg_dt -> valid_datetime end_dt ->
  valid_datetime beg_dt' -> valid_datetime end_dt' ->
  item_of beg_dt end_dt = item_of beg_dt' end_dt' ->
  month beg_dt = month beg_dt' /\ day beg_dt = day beg_dt' /\
  month end_dt = month end_dt' /\ day end_dt = day end_dt'.
Proof.
  rewrite !valid_datetime_spec.
  intros (_ & Hm1 & Hd1) (_ & Hm2 & Hd2) (_ & Hm3 & Hd3) (_ & Hm4 & Hd4).
  pose proof (days_in_month_pos (year beg_dt) _ Hm1).
  pose proof (days_in_month_pos (year end_dt) _ Hm2).
  pose proof (days_in_month_pos (year beg_dt') _ Hm3).
  pose proof (days_in_month_pos (year end_dt') _ Hm4).
  unfold item_of, strftime_md. unfold pad2 at 1 2 3 4 5 6 7 8.
  cbv [String.append]. intros [= A1 A2 B1 B2 C1 C2 D1 D2].
  split_and!; apply pad2_inj; try lia; unfold pad2; congruence.
Qed.

Lemma item_of_inj_witness :
  valid_datetime (mk_datetime 2026 12 28) /\
  valid_datetime (mk_datetime 2027 1 3) /\
  valid_datetime (mk_datetime 2032 12 28) /\
  valid_datetime (mk_datetime 2033 1 3) /\
  item_of (mk_datetime 2026 12 28) (mk_datetime 2027 1 3) =
    item_of (mk_datetime 2032 12 28) (mk_datetime 2033 1 3) /\
  month (mk_datetime 2026 12 28) = month (mk_datetime 2032 12 28) /\
  day (mk_datetime 2026 12 28) = day (mk_datetime 2032 12 28) /\
  month (mk_datetime 2027 1 3) = month (mk_datetime 2033 1 3) /\
  day (mk_datetime 2027 1 3) = day (mk_datetime 2033 1 3).
Proof.
  do 5 (split; [reflexivity|]).
  apply (item_of_inj (mk_datetime 2026 12 28) (mk_datetime 2027 1 3)
           (mk_datetime 2032 12 28) (mk_datetime 2033 1 3)); reflexivity.
Defined.

(** X8.  A response covers the days it was asked for and no others: when
    [list] returns for at least one period, the first period starts on the
    start date itself and the last one ends [periodCount * daysPerPeriod
    - 1] days after it. *)
Theorem list_covers d n s startDate rows :
  1 <= n -> fromisoformat s = Ok startDate ->
  PayPeriods_list d n s = Ok rows ->
  exists ps first final,
    periods d n s = Ok ps /\ rows = map row_of ps /\
    head ps = Some first /\ last ps = Some final /\
    first.1 = startDate /\
    add_days startDate (n * d - 1) = Ok final.2.
Proof.
  intros Hn Hs Hl. rewrite list_periods in Hl.
  destruct (periods d n s) as [ps | e] eqn:Hp; [|discriminate].
  injection Hl as <-.
  pose proof (fromisoformat_valid s startDate Hs) as Hv.
  destruct (periods_Ok d n s startDate ps Hs Hp) as [-> Hr].
  unfold range_len in *.
  destruct (Z.to_nat n) as [|k] eqn:Hk; [lia|].
  exists (map (period_at (toordinal startDate) d) (seq 0 (S k))),
    (period_at (toordinal startDate) d 0),
    (period_at (toordinal startDate) d k).
  split_and!; try done.
  - rewrite last_lookup, length_map, length_seq. cbn [pred].
    change (map ?f ?l) with (f <$> l). rewrite list_lookup_fmap.
    by rewrite (proj2 (lookup_seq 0 (S k) k k)) by lia.
  - cbn [period_at fst]. unfold start_ordinal.
    replace (toordinal startDate + Z.of_nat 0 * d)
      with (toordinal startDate) by lia.
    by apply fromordinal_toordinal.
  - destruct (Hr k) as [_ Hen]; [lia|].
    rewrite (add_days_valid _ _ Hv).
    replace (toordinal startDate + (n * d - 1))
      with (end_ordinal (toordinal startDate) d k)
      by (unfold end_ordinal, start_ordinal; nia).
    by rewrite Hen.
Qed.

Lemma list_covers_witness :
  1 <= 2 /\ fromisoformat "2026-12-28" = Ok (mk_datetime 2026 12 28) /\
  exists ps first final,
    periods 7 2 "2026-12-28" = Ok ps /\
    [mk_row "e_1228_0103"; mk_row "e_0104_0110"] = map row_of ps /\
    head ps = Some first /\ last ps = Some final /\
    first.1 = mk_datetime 2026 12 28 /\
    add_days (mk_datetime 2026 12 28) (2 * 7 - 1) = Ok final.2.
Proof.
  split; [lia|]. split; [reflexivity|].
  apply (list_covers 7 2 "2026-12-28" (mk_datetime 2026 12 28));
    [lia | reflexivity | vm_compute; reflexivity].
Defined.

(** X9.  With one day per period every label names the same day twice:
    each row of a response is [e_MMDD_MMDD] for one date that exists. *)
Theorem list_single_days n s rows :
  PayPeriods_list 1 n s = Ok rows ->
  forall r, r ∈ rows ->
    exists dt, valid_datetime dt /\ pay_period r = item_of dt dt.
Proof.
  rewrite list_periods. intros Hl.
  destruct (periods 1 n s) as [ps | e] eqn:Hp; [|discriminate].
  injection Hl as <-. intros r Hr.
  change (map row_of ps) with (row_of <$> ps) in Hr.
  apply list_elem_of_fmap in Hr as (p & -> & Hin).
  apply list_elem_of_lookup in Hin as [i Hi].
  destruct (periods_valid 1 n s ps i p Hp Hi) as [Hv1 _].
  exists p.1. split; [done|]. cbn [row_of pay_period]. f_equal.
  destruct (periods_Ok_cases 1 n s ps Hp)
    as [[_ ->] | (_ & w & _ & -> & _)]; [by rewrite lookup_nil in Hi|].
  apply lookup_period_at in Hi as [_ ->]. cbn [period_at fst snd].
  f_equal. unfold end_ordinal. lia.
Qed.

Lemma list_single_days_witness :
  PayPeriods_list 1 2 "2028-02-29" =
    Ok [mk_row "e_0229_0229"; mk_row "e_0301_0301"] /\
  forall r, r ∈ [mk_row "e_0229_0229"; mk_row "e_0301_0301"] ->
    exists dt, valid_datetime dt /\ pay_period r = item_of dt dt.
Proof.
  split; [vm_compute; reflexivity|].
  apply (list_single_days 2 "2028-02-29"). vm_compute. reflexivity.
Defined.

(** X10.  Whatever the arguments, a response has one row for each period
    asked for: [number_of_pay_periods] rows when that is positive, none
    otherwise.  [list] never returns a shorter or a longer table. *)
Theorem list_length d n s rows :
  PayPeriods_list d n s = Ok rows -> length rows = Z.to_nat n.
Proof.
  rewrite list_periods. intros Hl.
  destruct (periods d n s) as [ps | e] eqn:Hp; [|discriminate].
  injection Hl as <-. rewrite length_map.
  destruct (periods_Ok_cases d n s ps Hp)
    as [[Hn ->] | (_ & w & _ & -> & _)].
  - cbn. lia.
  - by rewrite length_map, length_seq.
Qed.

Lemma list_length_witness :
  PayPeriods_list (-7) 2 "2026-01-15" =
    Ok [mk_row "e_0115_0107"; mk_row "e_0108_1231"] /\
  length [mk_row "e_0115_0107"; mk_row "e_0108_1231"] = Z.to_nat 2.
Proof.
  split; [vm_compute; reflexivity|].
  apply (list_length (-7) 2 "2026-01-15"). vm_compute. reflexivity.
Defined.
